(** * The health endpoint of rk-website-core

    A shallow embedding of [src/app/api/health/route.ts] (the [GET] route
    handler) together with the parts of the JavaScript platform the handler
    calls: [Date.prototype.toISOString], [console.error] and
    [NextResponse.json].  The database client imported from [@/lib/db] is an
    interface the development is parametric in. *)

From Stdlib Require Import ZArith List Bool Ascii String Lia.
Import ListNotations.

Local Open Scope string_scope.
Local Open Scope Z_scope.

Set Warnings "-register-all".

(** ** JavaScript values *)

(** The values that flow through the handler: JSON data (the response body,
    the rows of a query) and [Error] objects (what a failed query throws). *)
Inductive Value : Type :=
| VUndefined
| VNull
| VBool (b : bool)
| VNumber (n : Z)
| VString (s : string)
| VArray (items : list Value)
| VObject (fields : list (string * Value))
| VError (name message : string).

(** Property lookup in the field list of an object literal; the first
    binding of the key is the one that is found. *)
Fixpoint assoc (k : string) (fields : list (string * Value)) : option Value :=
  match fields with
  | [] => None
  | (k', v) :: rest => if String.eqb k k' then Some v else assoc k rest
  end.

(** [v.k] for a value [v]: [None] stands for an absent property. *)
Definition get (k : string) (v : Value) : option Value :=
  match v with
  | VObject fields => assoc k fields
  | _ => None
  end.

(** [v.k1.k2] *)
Definition get2 (k1 k2 : string) (v : Value) : option Value :=
  match get k1 v with
  | Some o => get k2 o
  | None => None
  end.

(** [e.message] of a thrown value: only [Error] objects carry one. *)
Definition message_of (e : Value) : option string :=
  match e with
  | VError _ m => Some m
  | _ => None
  end.

(** ** Completions: a statement returns normally or throws *)

Inductive Completion (A : Type) : Type :=
| Normal (a : A)
| Throw (e : Value).
Arguments Normal {A} a.
Arguments Throw {A} e.

Definition bind {A B : Type} (c : Completion A) (k : A -> Completion B)
  : Completion B :=
  match c with
  | Normal a => k a
  | Throw e => Throw e
  end.

Notation "x <- c ;; k" := (bind c (fun x => k))
  (at level 61, c at next level, right associativity).

(** ** Dates (ECMA-262, "Date Objects") *)

Module JsDate.

Definition msPerSecond : Z := 1000.
Definition msPerMinute : Z := 60000.
Definition msPerHour : Z := 3600000.
Definition msPerDay : Z := 86400000.

(** A time value is a number of milliseconds since the epoch, at most
    8.64e15 in absolute value. *)
Definition maxTime : Z := 8640000000000000.

Definition time_value (t : Z) : Prop := - maxTime <= t <= maxTime.

Definition is_time_value (t : Z) : bool :=
  (- maxTime <=? t) && (t <=? maxTime).

Definition Day (t : Z) : Z := t / msPerDay.
Definition TimeWithinDay (t : Z) : Z := t mod msPerDay.

Definition DaysInYear (y : Z) : Z :=
  if negb (y mod 4 =? 0) then 365
  else if negb (y mod 100 =? 0) then 366
  else if negb (y mod 400 =? 0) then 365
  else 366.

Definition DayFromYear (y : Z) : Z :=
  365 * (y - 1970) + (y - 1969) / 4 - (y - 1901) / 100 + (y - 1601) / 400.

Definition TimeFromYear (y : Z) : Z := msPerDay * DayFromYear y.

(** The largest [y] with [TimeFromYear y <= t].  The quotient by the mean
    length of a year is off by at most one, which the two tests repair. *)
Definition YearFromTime (t : Z) : Z :=
  let d := Day t in
  let y := 1970 + (400 * d) / 146097 in
  if d <? DayFromYear y then y - 1
  else if DayFromYear (y + 1) <=? d then y + 1
  else y.

(** 1 for a leap year, 0 for a common year. *)
Definition LeapDays (y : Z) : Z := if DaysInYear y =? 366 then 1 else 0.

Definition InLeapYear (t : Z) : Z := LeapDays (YearFromTime t).

Definition DayWithinYear (t : Z) : Z := Day t - DayFromYear (YearFromTime t).

(** Months are numbered from 0 (January) to 11 (December). *)
Definition MonthFromTime (t : Z) : Z :=
  let d := DayWithinYear t in
  let l := InLeapYear t in
  if d <? 31 then 0
  else if d <? 59 + l then 1
  else if d <? 90 + l then 2
  else if d <? 120 + l then 3
  else if d <? 151 + l then 4
  else if d <? 181 + l then 5
  else if d <? 212 + l then 6
  else if d <? 243 + l then 7
  else if d <? 273 + l then 8
  else if d <? 304 + l then 9
  else if d <? 334 + l then 10
  else 11.

(** Number of days of the year before the first day of month [m], in a year
    with leap-day count [l]. *)
Definition DaysBeforeMonth (m l : Z) : Z :=
  match m with
  | 0 => 0
  | 1 => 31
  | 2 => 59 + l
  | 3 => 90 + l
  | 4 => 120 + l
  | 5 => 151 + l
  | 6 => 181 + l
  | 7 => 212 + l
  | 8 => 243 + l
  | 9 => 273 + l
  | 10 => 304 + l
  | _ => 334 + l
  end.

(** Day of the month, from 1. *)
Definition DateFromTime (t : Z) : Z :=
  DayWithinYear t - DaysBeforeMonth (MonthFromTime t) (InLeapYear t) + 1.

Definition HourFromTime (t : Z) : Z := (t / msPerHour) mod 24.
Definition MinFromTime (t : Z) : Z := (t / msPerMinute) mod 60.
Definition SecFromTime (t : Z) : Z := (t / msPerSecond) mod 60.
Definition msFromTime (t : Z) : Z := t mod msPerSecond.

(** *** Decimal fields *)

Definition digit (n : Z) : ascii := ascii_of_nat (48 + Z.to_nat n).

(** [n] written with exactly [width] decimal digits, zero padded (the low
    [width] digits when [n] has more). *)
Fixpoint pad (width : nat) (n : Z) : string :=
  match width with
  | O => EmptyString
  | S w => pad w (n / 10) ++ String (digit (n mod 10)) EmptyString
  end.

(** Years 0 to 9999 take four digits; the others take the expanded form, a
    sign and six digits. *)
Definition year_field (y : Z) : string :=
  if (0 <=? y) && (y <=? 9999) then pad 4 y
  else if y <? 0 then String "-" (pad 6 (- y))
  else String "+" (pad 6 y).

(** The Date Time String Format of a time value, on the UTC time scale:
    [YYYY-MM-DDTHH:mm:ss.sssZ]. *)
Definition format (t : Z) : string :=
  year_field (YearFromTime t) ++ "-" ++
  pad 2 (MonthFromTime t + 1) ++ "-" ++
  pad 2 (DateFromTime t) ++ "T" ++
  pad 2 (HourFromTime t) ++ ":" ++
  pad 2 (MinFromTime t) ++ ":" ++
  pad 2 (SecFromTime t) ++ "." ++
  pad 3 (msFromTime t) ++ "Z".

(** [TimeClip]: a number of milliseconds becomes a time value, or [NaN]
    ([None]) when it is out of range. *)
Definition TimeClip (t : Z) : option Z :=
  if is_time_value t then Some t else None.

(** [new Date()]: a Date object whose [[DateValue]] is the reading of the
    host clock. *)
Definition new_Date (clock : Z) : option Z := TimeClip clock.

(** [Date.prototype.toISOString]: a [RangeError] for an invalid date, the
    formatted time value otherwise. *)
Definition toISOString (date : option Z) : Completion string :=
  match date with
  | Some tv => Normal (format tv)
  | None => Throw (VError "RangeError" "Invalid time value")
  end.

(** *** Reading the format back ([Date.parse] on the complete format) *)

Definition digit_val (c : ascii) : option Z :=
  let n := Z.of_nat (nat_of_ascii c) in
  if (48 <=? n) && (n <=? 57) then Some (n - 48) else None.

(** Reads exactly [width] decimal digits after the digits that made [acc]. *)
Fixpoint digits (width : nat) (acc : Z) (s : string) : option (Z * string) :=
  match width with
  | O => Some (acc, s)
  | S w =>
      match s with
      | String c rest =>
          match digit_val c with
          | Some d => digits w (10 * acc + d) rest
          | None => None
          end
      | EmptyString => None
      end
  end.

Definition expect (c : ascii) (s : string) : option string :=
  match s with
  | String c' rest => if Ascii.eqb c c' then Some rest else None
  | EmptyString => None
  end.

(** Four digits, or a sign and six digits; [-000000] is not a year. *)
Definition read_year (s : string) : option (Z * string) :=
  match s with
  | String "+" rest => digits 6 0 rest
  | String "-" rest =>
      match digits 6 0 rest with
      | Some (y, rest') => if y =? 0 then None else Some (- y, rest')
      | None => None
      end
  | _ => digits 4 0 s
  end.

(** Length of month [m] (from 0) in a year with leap-day count [l]. *)
Definition DaysInMonth (m l : Z) : Z :=
  match m with
  | 1 => 28 + l
  | 3 | 5 | 8 | 10 => 30
  | _ => 31
  end.

(** [MakeDay] for a month from 0 to 11 and a day of the month from 1. *)
Definition MakeDay (year month date : Z) : Z :=
  DayFromYear year + DaysBeforeMonth month (LeapDays year) + date - 1.

Definition MakeTime (hour min sec ms : Z) : Z :=
  hour * msPerHour + min * msPerMinute + sec * msPerSecond + ms.

Definition MakeDate (day time : Z) : Z := day * msPerDay + time.

Definition obind {A B : Type} (o : option A) (k : A -> option B) : option B :=
  match o with
  | Some a => k a
  | None => None
  end.

(** The time value of a string in the complete Date Time String Format with
    the UTC designator; [None] for any other string, for a field out of its
    range and for an instant that is not a time value. *)
Definition parse (s : string) : option Z :=
  obind (read_year s) (fun '(y, s) =>
  obind (expect "-" s) (fun s =>
  obind (digits 2 0 s) (fun '(mo, s) =>
  obind (expect "-" s) (fun s =>
  obind (digits 2 0 s) (fun '(d, s) =>
  obind (expect "T" s) (fun s =>
  obind (digits 2 0 s) (fun '(h, s) =>
  obind (expect ":" s) (fun s =>
  obind (digits 2 0 s) (fun '(mi, s) =>
  obind (expect ":" s) (fun s =>
  obind (digits 2 0 s) (fun '(sec, s) =>
  obind (expect "." s) (fun s =>
  obind (digits 3 0 s) (fun '(ms, s) =>
  obind (expect "Z" s) (fun s =>
    match s with
    | EmptyString =>
        if (1 <=? mo) && (mo <=? 12) && (1 <=? d)
           && (d <=? DaysInMonth (mo - 1) (LeapDays y))
           && (h <=? 23) && (mi <=? 59) && (sec <=? 59)
        then TimeClip (MakeDate (MakeDay y (mo - 1) d) (MakeTime h mi sec ms))
        else None
    | _ => None
    end)))))))))))))).

(** A string is a valid ISO-8601 datetime when it reads back as an instant. *)
Definition is_iso8601 (s : string) : bool :=
  match parse s with
  | Some _ => true
  | None => false
  end.

End JsDate.

(** ** Strings *)

(** [hay.includes(needle)] *)
Fixpoint includes (hay needle : string) : bool :=
  String.prefix needle hay ||
  match hay with
  | EmptyString => false
  | String _ rest => includes rest needle
  end.

(** ** The platform around the handler *)

(** What [await] observes of the promise of a query: it is fulfilled with a
    value or rejected with a reason after some milliseconds, or it never
    settles. *)
Inductive Awaited : Type :=
| Fulfilled (elapsed : Z) (rows : Value)
| Rejected (elapsed : Z) (reason : Value)
| Pending.

(** The client exported by [@/lib/db], as far as the handler uses it: the
    tagged template [$queryRaw], given the literal parts of the template and
    the interpolated values, runs against the backing store. *)
Class DbClient (Store : Type) : Type :=
  queryRaw : list string -> list Value -> Store -> Awaited * Store.

Inductive Level : Type := LogInfo | LogWarn | LogError.

Record LogEntry : Type := { level : Level; args : list Value }.

(** The world a call runs in: the backing store, the host clock (in
    milliseconds since the epoch) and what was written to the console. *)
Record World (Store : Type) : Type :=
  { store : Store; clock : Z; console : list LogEntry }.
Arguments store {Store} w.
Arguments clock {Store} w.
Arguments console {Store} w.
Arguments Build_World {Store} store clock console.

(** [console.error(...args)] *)
Definition console_error {Store : Type} (xs : list Value) (w : World Store)
  : World Store :=
  {| store := store w;
     clock := clock w;
     console := (console w ++ [{| level := LogError; args := xs |}])%list |}.

(** The host clock moves on by [dt] milliseconds. *)
Definition tick {Store : Type} (dt : Z) (w : World Store) : World Store :=
  {| store := store w; clock := clock w + dt; console := console w |}.

Record Response : Type :=
  { status : Z; headers : list (string * string); body : Value }.

(** Status codes of responses that cannot carry a body. *)
Definition null_body_status (st : Z) : bool :=
  (st =? 101) || (st =? 103) || (st =? 204) || (st =? 205) || (st =? 304).

(** [NextResponse.json(data, init)]: the status of [init], 200 without one;
    the data as the JSON body. *)
Definition NextResponse_json (data : Value) (init : option Z)
  : Completion Response :=
  let st := match init with Some st => st | None => 200 end in
  if negb ((200 <=? st) && (st <=? 599)) then
    Throw (VError "RangeError"
             "init[status] must be in the range of 200 to 599, inclusive.")
  else if null_body_status st then
    Throw (VError "TypeError" "Response with null body status cannot have body")
  else
    Normal {| status := st;
              headers := [("content-type", "application/json")];
              body := data |}.

(** ** The route handler, [src/app/api/health/route.ts] *)

(** How a call of the [async] handler ends: its promise is fulfilled with a
    response, is rejected, or never settles. *)
Inductive Outcome : Type :=
| Responds (r : Response)
| Throws (e : Value)
| Hangs.

(** The inbound request the framework hands to a route handler. *)
Record Request : Type :=
  { method : string;
    url : string;
    request_headers : list (string * string);
    request_body : option string }.

Section Route.

Context {Store : Type} {db : DbClient Store}.

(** The body of [try] after the [await]: lines 9 to 16. *)
Definition healthy_response (w : World Store) : Completion Response :=
  timestamp <- JsDate.toISOString (JsDate.new_Date (clock w)) ;;
  NextResponse_json
    (VObject
       [("status", VString "healthy");
        ("timestamp", VString timestamp);
        ("services",
         VObject [("database", VString "connected");
                  ("api", VString "operational")])])
    None.

(** The [catch] block: lines 17 to 32. *)
Definition catch_block (error : Value) (w : World Store)
  : Outcome * World Store :=
  let w := console_error [VString "Health check failed:"; error] w in
  let r :=
    timestamp <- JsDate.toISOString (JsDate.new_Date (clock w)) ;;
    NextResponse_json
      (VObject
         [("status", VString "unhealthy");
          ("timestamp", VString timestamp);
          ("error", VString "Database connection failed");
          ("services",
           VObject [("database", VString "disconnected");
                    ("api", VString "operational")])])
      (Some 503) in
  match r with
  | Normal r => (Responds r, w)
  | Throw e => (Throws e, w)
  end.

(** [export async function GET()] *)
Definition GET (w : World Store) : Outcome * World Store :=
  let '(probe, store') := queryRaw ["SELECT 1"] [] (store w) in
  let w := {| store := store'; clock := clock w; console := console w |} in
  match probe with
  | Pending => (Hangs, w)
  | Fulfilled elapsed _ =>
      let w := tick elapsed w in
      match healthy_response w with
      | Normal r => (Responds r, w)
      | Throw error => catch_block error w
      end
  | Rejected elapsed error => catch_block error (tick elapsed w)
  end.

(** The framework calls the exported function with the request; [GET]
    declares no parameter, so the argument is dropped. *)
Definition handle (request : Request) (w : World Store)
  : Outcome * World Store :=
  GET w.

(** The server answers requests one after the other; before each one the
    host has been idle for some milliseconds. *)
Fixpoint serve (requests : list (Z * Request)) (w : World Store)
  : list Outcome * World Store :=
  match requests with
  | [] => ([], w)
  | (idle, request) :: rest =>
      let '(o, w) := handle request (tick idle w) in
      let '(os, w) := serve rest w in
      (o :: os, w)
  end.

End Route.

(** ** Reading a response *)

Definition field (k : string) (r : Response) : option Value := get k (body r).

Definition service (k : string) (r : Response) : option Value :=
  get2 "services" k (body r).

(** A service entry reports a probe that succeeded. *)
Definition service_up (state : Value) : bool :=
  match state with
  | VString s => String.eqb s "connected" || String.eqb s "operational"
  | _ => false
  end.

(** All the probes recorded under [services] succeeded. *)
Definition all_services_up (r : Response) : bool :=
  match field "services" r with
  | Some (VObject entries) => forallb (fun e => service_up (snd e)) entries
  | _ => false
  end.

(** The response with the [timestamp] property of its body left out. *)
Definition without_timestamp (r : Response) : Response :=
  {| status := status r;
     headers := headers r;
     body :=
       match body r with
       | VObject fields =>
           VObject
             (filter (fun e => negb (String.eqb (fst e) "timestamp")) fields)
       | v => v
       end |}.

(** ** Observations on a call *)

Section Observations.

Context {Store : Type} {db : DbClient Store}.

(** How the probe of the handler ends when it runs in world [w]. *)
Definition probe (w : World Store) : Awaited :=
  fst (queryRaw ["SELECT 1"] [] (store w)).

(** The store after the probe. *)
Definition probed_store (w : World Store) : Store :=
  snd (queryRaw ["SELECT 1"] [] (store w)).

Definition settles (a : Awaited) : bool :=
  match a with
  | Pending => false
  | _ => true
  end.

Definition succeeds (a : Awaited) : bool :=
  match a with
  | Fulfilled _ _ => true
  | _ => false
  end.

Definition elapsed_of (a : Awaited) : Z :=
  match a with
  | Fulfilled dt _ | Rejected dt _ => dt
  | Pending => 0
  end.

(** The reading of the clock when the response is built, after the probe
    has settled. *)
Definition response_time (w : World Store) : Z :=
  clock w + elapsed_of (probe w).

(** The world in which the response is built. *)
Definition after_probe (w : World Store) : World Store :=
  {| store := probed_store w; clock := response_time w; console := console w |}.

(** The worlds in which the successive calls of [serve] start. *)
Fixpoint arrivals (requests : list (Z * Request)) (w : World Store)
  : list (World Store) :=
  match requests with
  | [] => []
  | (idle, request) :: rest =>
      let a := tick idle w in
      a :: arrivals rest (snd (handle request a))
  end.

(** The probe only reads: it leaves the backing store as it found it. *)
Definition read_only_probe : Prop :=
  forall s : Store, snd (queryRaw ["SELECT 1"] [] s) = s.

End Observations.

(** ** The two responses of the interface description

    These follow the words of the specification (section 6, "HTTP
    endpoint"), not the code; the theorems compare the handler with them. *)

Module Spec.

Definition json_headers : list (string * string) :=
  [("content-type", "application/json")].

(** [200 OK] *)
Definition success (timestamp : string) : Response :=
  {| status := 200;
     headers := json_headers;
     body :=
       VObject
         [("status", VString "healthy");
          ("timestamp", VString timestamp);
          ("services",
           VObject [("database", VString "connected");
                    ("api", VString "operational")])] |}.

(** [503 Service Unavailable] *)
Definition failure (timestamp : string) : Response :=
  {| status := 503;
     headers := json_headers;
     body :=
       VObject
         [("status", VString "unhealthy");
          ("timestamp", VString timestamp);
          ("error", VString "Database connection failed");
          ("services",
           VObject [("database", VString "disconnected");
                    ("api", VString "operational")])] |}.

End Spec.

(** ** A client and some worlds to run the handler in *)

(** A store that is reachable or not, answers after [latency] milliseconds
    and, when it is not reachable, makes the query fail with [refusal]. *)
Record Pg : Type := { reachable : bool; latency : Z; refusal : Value }.

#[export] Instance pg_client : DbClient Pg :=
  fun _ _ s =>
    if reachable s
    then (Fulfilled (latency s) (VArray [VObject [("?column?", VNumber 1)]]), s)
    else (Rejected (latency s) (refusal s), s).

Definition unreachable : Value :=
  VError "PrismaClientInitializationError"
    "Can't reach database server at localhost:5432".

(** 2026-11-03T00:00:00.120Z on the clock, the store up. *)
Definition world_up : World Pg :=
  {| store := {| reachable := true; latency := 3; refusal := unreachable |};
     clock := 1793664000120;
     console := [] |}.

(** The same instant, the store down. *)
Definition world_down : World Pg :=
  {| store := {| reachable := false; latency := 3; refusal := unreachable |};
     clock := 1793664000120;
     console := [] |}.

(** The store down, the query failing with a plain [Error] one
    millisecond sooner on a clock that is one millisecond ahead. *)
Definition world_refused : World Pg :=
  {| store := {| reachable := false; latency := 2;
                 refusal := VError "Error" "connection failed" |};
     clock := 1793664000121;
     console := [{| level := LogInfo; args := [VString "ready"] |}] |}.

Definition sample_request : Request :=
  {| method := "GET";
     url := "http://localhost:3000/api/health";
     request_headers := [("accept", "application/json")];
     request_body := None |}.

Definition other_request : Request :=
  {| method := "GET";
     url := "http://localhost:3000/api/health?verbose=1";
     request_headers := [("authorization", "Bearer 0000"); ("x-debug", "1")];
     request_body := Some "{}" |}.

(** Three requests: 5 ms after the start, a second later, and at once
    after that. *)
Definition three_requests : list (Z * Request) :=
  [(5, sample_request); (1000, other_request); (0, sample_request)].

(** ** Further observations *)

(** [Object.keys(v)]: the property names of an object, in order. *)
Definition keys (v : Value) : list string :=
  match v with
  | VObject fields => map fst fields
  | _ => []
  end.

Definition is_digit (c : ascii) : bool :=
  match JsDate.digit_val c with
  | Some _ => true
  | None => false
  end.

(** [s] follows [layout]: a [d] of the layout stands for one decimal digit,
    any other character for itself. *)
Fixpoint follows (layout s : string) : bool :=
  match layout, s with
  | EmptyString, EmptyString => true
  | String p layout', String c s' =>
      (if Ascii.eqb p "d" then is_digit c else Ascii.eqb p c)
      && follows layout' s'
  | _, _ => false
  end.

Section CallRecords.

Context {Store : Type} {db : DbClient Store}.

(** The line the [catch] block writes for a thrown value. *)
Definition failure_entry (error : Value) : LogEntry :=
  {| level := LogError; args := [VString "Health check failed:"; error] |}.

(** What a call starting in world [a] is expected to write to the console:
    one line when the probe is rejected, nothing otherwise. *)
Definition expected_log (a : World Store) : list LogEntry :=
  match probe a with
  | Rejected _ error => [failure_entry error]
  | _ => []
  end.

(** The response expected of a call starting in world [a] whose probe
    settles. *)
Definition expected_response (a : World Store) : Response :=
  if succeeds (probe a)
  then Spec.success (JsDate.format (response_time a))
  else Spec.failure (JsDate.format (response_time a)).

End CallRecords.

(** A client that plays a script: each query ends as the head of the list
    says and consumes it; with the script used up, queries never settle. *)
#[export] Instance scripted_client : DbClient (list Awaited) :=
  fun _ _ script =>
    match script with
    | [] => (Pending, [])
    | a :: rest => (a, rest)
    end.

(** The store fails, recovers, and fails again. *)
Definition world_flaky : World (list Awaited) :=
  {| store := [Rejected 7 unreachable;
               Fulfilled 2 (VArray [VObject [("?column?", VNumber 1)]]);
               Rejected 30000 (VError "Error" "timeout")];
     clock := 1793664000120;
     console := [] |}.

(** A store whose queries never return. *)
Definition world_hung : World (list Awaited) :=
  {| store := []; clock := 1793664000120; console := [] |}.

(** The layouts of a timestamp: years 0 to 9999, later years, earlier
    years. *)
Definition layout_common : string := "dddd-dd-ddTdd:dd:dd.dddZ".
Definition layout_later : string := "+dddddd-dd-ddTdd:dd:dd.dddZ".
Definition layout_earlier : string := "-dddddd-dd-ddTdd:dd:dd.dddZ".

(** 0000-01-01T00:00:00.000Z and 9999-12-31T23:59:59.999Z *)
Definition first_common_instant : Z := -62167219200000.
Definition last_common_instant : Z := 253402300799999.

(** Two stores that answer the probe with different rows after different
    delays, the responses falling on the same millisecond. *)
Definition world_one_row : World (list Awaited) :=
  {| store := [Fulfilled 3 (VArray [VObject [("?column?", VNumber 1)]])];
     clock := 1793664000120;
     console := [] |}.

Definition world_no_row : World (list Awaited) :=
  {| store := [Fulfilled 1 (VArray [])];
     clock := 1793664000122;
     console := [{| level := LogWarn; args := [VString "slow query"] |}] |}.

(** * Properties *)

(** ** The calendar *)

Module JsDateFacts.
Import JsDate.

Lemma DayFromYear_succ (y : Z) :
  DayFromYear (y + 1) = DayFromYear y + DaysInYear y.
Proof.
  unfold DayFromYear, DaysInYear.
  destruct (Z.eqb_spec (y mod 4) 0), (Z.eqb_spec (y mod 100) 0),
    (Z.eqb_spec (y mod 400) 0); cbn [negb];
    Z.to_euclidean_division_equations; lia.
Qed.

Lemma DaysInYear_cases (y : Z) : DaysInYear y = 365 + LeapDays y.
Proof.
  unfold LeapDays, DaysInYear.
  repeat match goal with
         | |- context [negb (?a =? ?b)] => destruct (Z.eqb_spec a b); cbn [negb]
         end; reflexivity.
Qed.

Lemma LeapDays_range (y : Z) : 0 <= LeapDays y <= 1.
Proof. unfold LeapDays. destruct (_ =? _); lia. Qed.

Lemma YearFromTime_spec (t : Z) :
  DayFromYear (YearFromTime t) <= Day t < DayFromYear (YearFromTime t + 1).
Proof.
  unfold YearFromTime.
  set (d := Day t). set (y := 1970 + 400 * d / 146097).
  assert (Hlo : DayFromYear (y - 1) <= d)
    by (unfold DayFromYear, y; Z.to_euclidean_division_equations; lia).
  assert (Hhi : d < DayFromYear (y + 2))
    by (unfold DayFromYear, y; Z.to_euclidean_division_equations; lia).
  cbv zeta.
  destruct (Z.ltb_spec d (DayFromYear y)).
  - replace (y - 1 + 1) with y by lia. lia.
  - destruct (Z.leb_spec (DayFromYear (y + 1)) d).
    + replace (y + 1 + 1) with (y + 2) by lia. lia.
    + lia.
Qed.

Lemma DayFromYear_mono (y1 y2 : Z) :
  y1 <= y2 -> DayFromYear y1 <= DayFromYear y2.
Proof.
  intros H. unfold DayFromYear. Z.to_euclidean_division_equations; lia.
Qed.

(** [YearFromTime t] is the largest year that starts at or before [t]. *)
Lemma YearFromTime_largest (t : Z) :
  TimeFromYear (YearFromTime t) <= t /\
  forall y : Z, TimeFromYear y <= t -> y <= YearFromTime t.
Proof.
  pose proof (YearFromTime_spec t) as [Hlo Hhi].
  assert (Hday : msPerDay * Day t <= t < msPerDay * Day t + msPerDay)
    by (unfold Day, msPerDay; Z.to_euclidean_division_equations; lia).
  unfold TimeFromYear. split.
  - unfold msPerDay in *. lia.
  - intros y Hy.
    destruct (Z_le_gt_dec y (YearFromTime t)) as [Hle | Hgt]; [assumption |].
    assert (Hm : DayFromYear (YearFromTime t + 1) <= DayFromYear y)
      by (apply DayFromYear_mono; lia).
    unfold msPerDay in *. lia.
Qed.

Lemma DayWithinYear_range (t : Z) :
  0 <= DayWithinYear t < 365 + InLeapYear t.
Proof.
  unfold DayWithinYear, InLeapYear.
  pose proof (YearFromTime_spec t) as H.
  rewrite DayFromYear_succ, DaysInYear_cases in H. lia.
Qed.

Lemma MonthFromTime_range (t : Z) : 0 <= MonthFromTime t <= 11.
Proof.
  unfold MonthFromTime.
  repeat match goal with
         | |- context [?a <? ?b] => destruct (Z.ltb_spec a b)
         end; lia.
Qed.

Lemma DateFromTime_range (t : Z) :
  1 <= DateFromTime t <= DaysInMonth (MonthFromTime t) (InLeapYear t).
Proof.
  pose proof (DayWithinYear_range t) as Hd.
  pose proof (LeapDays_range (YearFromTime t)) as Hl.
  unfold DateFromTime, MonthFromTime.
  fold (InLeapYear t) in Hl.
  repeat match goal with
         | |- context [?a <? ?b] => destruct (Z.ltb_spec a b)
         end; cbn [DaysBeforeMonth DaysInMonth]; lia.
Qed.

Lemma MakeDay_from_time (t : Z) :
  MakeDay (YearFromTime t) (MonthFromTime t) (DateFromTime t) = Day t.
Proof.
  unfold MakeDay, DateFromTime, DayWithinYear, InLeapYear. lia.
Qed.

Lemma MakeTime_from_time (t : Z) :
  MakeTime (HourFromTime t) (MinFromTime t) (SecFromTime t) (msFromTime t)
  = TimeWithinDay t.
Proof.
  unfold MakeTime, HourFromTime, MinFromTime, SecFromTime, msFromTime,
    TimeWithinDay, msPerHour, msPerMinute, msPerSecond, msPerDay.
  Z.to_euclidean_division_equations; lia.
Qed.

Lemma MakeDate_from_time (t : Z) : MakeDate (Day t) (TimeWithinDay t) = t.
Proof.
  unfold MakeDate, Day, TimeWithinDay, msPerDay.
  Z.to_euclidean_division_equations; lia.
Qed.

Lemma time_fields_range (t : Z) :
  0 <= HourFromTime t <= 23 /\ 0 <= MinFromTime t <= 59 /\
  0 <= SecFromTime t <= 59 /\ 0 <= msFromTime t <= 999.
Proof.
  unfold HourFromTime, MinFromTime, SecFromTime, msFromTime, msPerSecond.
  repeat split; Z.to_euclidean_division_equations; lia.
Qed.

(** The years of the time values. *)
Lemma YearFromTime_range (t : Z) :
  time_value t -> -271821 <= YearFromTime t <= 275760.
Proof.
  intros Ht. pose proof (YearFromTime_spec t) as H.
  assert (Hd : -100000000 <= Day t <= 100000000)
    by (unfold time_value, maxTime in Ht; unfold Day, msPerDay;
        Z.to_euclidean_division_equations; lia).
  revert H. generalize (YearFromTime t) as y. intros y H.
  unfold DayFromYear in H. Z.to_euclidean_division_equations; lia.
Qed.

(** *** Decimal fields read back *)

Lemma append_assoc (a b c : string) : ((a ++ b) ++ c = a ++ (b ++ c))%string.
Proof. induction a as [|x a IH]; cbn; [reflexivity | now rewrite IH]. Qed.

(** A property of the ten digits is checked digit by digit. *)
Lemma by_digit (P : Z -> Prop) :
  (forall k : nat, (k < 10)%nat -> P (Z.of_nat k)) ->
  forall n : Z, 0 <= n <= 9 -> P n.
Proof.
  intros HP n Hn. rewrite <- (Z2Nat.id n) by lia. apply HP. lia.
Qed.

Lemma digit_val_digit (n : Z) : 0 <= n <= 9 -> digit_val (digit n) = Some n.
Proof.
  intros H. pattern n. apply by_digit; [| exact H].
  intros k Hk. do 10 (destruct k as [|k]; [reflexivity |]). lia.
Qed.

Lemma digits_snoc (w : nat) : forall (acc : Z) (s : string),
  digits (S w) acc s
  = obind (digits w acc s) (fun '(a, rest) => digits 1 a rest).
Proof.
  induction w as [|w IH]; intros acc s.
  - reflexivity.
  - change (digits (S (S w)) acc s) with
      (match s with
       | String c rest =>
           match digit_val c with
           | Some d => digits (S w) (10 * acc + d) rest
           | None => None
           end
       | EmptyString => None
       end).
    destruct s as [|c rest]; [reflexivity |].
    cbn [digits]. destruct (digit_val c) as [d|]; [| reflexivity].
    apply IH.
Qed.

Lemma digits_pad (w : nat) : forall (n acc : Z) (rest : string),
  0 <= n < 10 ^ Z.of_nat w ->
  digits w acc (pad w n ++ rest) = Some (acc * 10 ^ Z.of_nat w + n, rest).
Proof.
  induction w as [|w IH]; intros n acc rest Hn.
  - cbn in *. f_equal. f_equal. lia.
  - rewrite Nat2Z.inj_succ, Z.pow_succ_r in * by lia.
    rewrite digits_snoc. cbn [pad]. rewrite append_assoc.
    rewrite IH by (Z.to_euclidean_division_equations; lia).
    cbn [obind append digits].
    rewrite digit_val_digit by (Z.to_euclidean_division_equations; lia).
    f_equal. f_equal. Z.to_euclidean_division_equations; nia.
Qed.

Lemma read_year_digit (n : Z) (s : string) :
  0 <= n <= 9 ->
  read_year (String (digit n) s) = digits 4 0 (String (digit n) s).
Proof.
  intros H. pattern n. apply by_digit; [| exact H].
  intros k Hk. do 10 (destruct k as [|k]; [reflexivity |]). lia.
Qed.

Lemma read_year_plus (s : string) :
  read_year (String "+" s) = digits 6 0 s.
Proof. reflexivity. Qed.

Lemma read_year_minus (s : string) :
  read_year (String "-" s)
  = match digits 6 0 s with
    | Some (y, rest) => if y =? 0 then None else Some (- y, rest)
    | None => None
    end.
Proof. reflexivity. Qed.

Lemma read_year_field (y : Z) (rest : string) :
  -999999 <= y <= 999999 ->
  read_year (year_field y ++ rest) = Some (y, rest).
Proof.
  intros Hy. unfold year_field.
  destruct (Z.leb_spec 0 y); destruct (Z.leb_spec y 9999); cbn [andb].
  - transitivity (digits 4 0 (pad 4 y ++ rest)).
    + cbn [pad append]. apply read_year_digit.
      Z.to_euclidean_division_equations; lia.
    + rewrite digits_pad by (change (10 ^ Z.of_nat 4) with 10000; lia).
      reflexivity.
  - destruct (Z.ltb_spec y 0); [lia |].
    change (String "+" (pad 6 y) ++ rest)%string
      with (String "+" (pad 6 y ++ rest)).
    rewrite read_year_plus, digits_pad
      by (change (10 ^ Z.of_nat 6) with 1000000; lia).
    reflexivity.
  - destruct (Z.ltb_spec y 0); [| lia].
    change (String "-" (pad 6 (- y)) ++ rest)%string
      with (String "-" (pad 6 (- y) ++ rest)).
    rewrite read_year_minus, digits_pad
      by (change (10 ^ Z.of_nat 6) with 1000000; lia).
    cbn [Z.mul Z.add]. destruct (Z.eqb_spec (- y) 0); [lia |].
    now rewrite Z.opp_involutive.
  - lia.
Qed.

Lemma expect_head (c : ascii) (s : string) : expect c (String c s) = Some s.
Proof. unfold expect. now rewrite Ascii.eqb_refl. Qed.

Lemma digits2_pad (n : Z) (rest : string) :
  0 <= n <= 99 -> digits 2 0 (pad 2 n ++ rest) = Some (n, rest).
Proof.
  intros H. rewrite digits_pad by (change (10 ^ Z.of_nat 2) with 100; lia).
  reflexivity.
Qed.

Lemma digits3_pad (n : Z) (rest : string) :
  0 <= n <= 999 -> digits 3 0 (pad 3 n ++ rest) = Some (n, rest).
Proof.
  intros H. rewrite digits_pad by (change (10 ^ Z.of_nat 3) with 1000; lia).
  reflexivity.
Qed.

Lemma DaysInMonth_le_31 (m l : Z) : 0 <= l <= 1 -> DaysInMonth m l <= 31.
Proof.
  intros H. unfold DaysInMonth.
  repeat match goal with |- context [match ?x with _ => _ end] => destruct x end;
    lia.
Qed.

(** [parse] is a left inverse of [format] on the time values. *)
Lemma parse_format (t : Z) : time_value t -> parse (format t) = Some t.
Proof.
  intros Ht.
  pose proof (YearFromTime_range t Ht) as Hy.
  pose proof (MonthFromTime_range t) as Hm.
  pose proof (DateFromTime_range t) as Hd.
  pose proof (LeapDays_range (YearFromTime t)) as Hl.
  pose proof (DaysInMonth_le_31 (MonthFromTime t) _ Hl) as Hd31.
  fold (InLeapYear t) in Hd31.
  destruct (time_fields_range t) as (Hh & Hmi & Hs & Hms).
  unfold parse, format.
  rewrite read_year_field by lia.
  cbn [obind append]. rewrite expect_head.
  cbn [obind]. rewrite digits2_pad by lia.
  cbn [obind]. rewrite expect_head.
  cbn [obind]. rewrite digits2_pad by lia.
  cbn [obind]. rewrite expect_head.
  cbn [obind]. rewrite digits2_pad by lia.
  cbn [obind]. rewrite expect_head.
  cbn [obind]. rewrite digits2_pad by lia.
  cbn [obind]. rewrite expect_head.
  cbn [obind]. rewrite digits2_pad by lia.
  cbn [obind]. rewrite expect_head.
  cbn [obind]. rewrite digits3_pad by lia.
  cbn [obind]. rewrite expect_head.
  cbn [obind].
  replace (MonthFromTime t + 1 - 1) with (MonthFromTime t) by lia.
  fold (InLeapYear t).
  repeat match goal with
         | |- context [?a <=? ?b] =>
             destruct (Z.leb_spec a b); [cbn [andb] | lia]
         end.
  rewrite MakeDay_from_time, MakeTime_from_time, MakeDate_from_time.
  unfold TimeClip, is_time_value.
  destruct Ht as [Ht1 Ht2].
  destruct (Z.leb_spec (- maxTime) t); [| lia].
  destruct (Z.leb_spec t maxTime); [| lia]. reflexivity.
Qed.

End JsDateFacts.


(** ** Substrings *)

Lemma prefix_length (s1 : string) : forall s2 : string,
  String.prefix s1 s2 = true -> (String.length s1 <= String.length s2)%nat.
Proof.
  induction s1 as [|a s1 IH]; intros [|b s2]; cbn; intros H;
    try discriminate; try apply Nat.le_0_l.
  destruct (ascii_dec a b); [| discriminate].
  apply le_n_S, IH, H.
Qed.

(** A string includes no string longer than itself. *)
Lemma includes_length (hay needle : string) :
  includes hay needle = true ->
  (String.length needle <= String.length hay)%nat.
Proof.
  induction hay as [|c hay IH]; cbn [includes]; intros H.
  - apply orb_true_iff in H. destruct H as [H | H]; [| discriminate].
    now apply prefix_length.
  - apply orb_true_iff in H. destruct H as [H | H].
    + now apply prefix_length.
    + apply IH in H. cbn. lia.
Qed.

Lemma includes_longer (hay needle : string) :
  (String.length hay < String.length needle)%nat ->
  includes hay needle = false.
Proof.
  intros H. destruct (includes hay needle) eqn:E; [| reflexivity].
  apply includes_length in E. lia.
Qed.

(** ** The handler *)

Section RouteFacts.

Context {Store : Type} {db : DbClient Store}.

Implicit Types (w : World Store) (r : Response).

Lemma toISOString_clock (t : Z) :
  JsDate.time_value t ->
  JsDate.toISOString (JsDate.new_Date t) = Normal (JsDate.format t).
Proof.
  intros [H1 H2]. unfold JsDate.new_Date, JsDate.TimeClip, JsDate.is_time_value.
  destruct (Z.leb_spec (- JsDate.maxTime) t); [| lia].
  destruct (Z.leb_spec t JsDate.maxTime); [| lia]. reflexivity.
Qed.

Lemma toISOString_bad_clock (t : Z) :
  ~ JsDate.time_value t ->
  JsDate.toISOString (JsDate.new_Date t)
  = Throw (VError "RangeError" "Invalid time value").
Proof.
  intros H. unfold JsDate.new_Date, JsDate.TimeClip, JsDate.is_time_value.
  destruct (Z.leb_spec (- JsDate.maxTime) t);
    destruct (Z.leb_spec t JsDate.maxTime); cbn [andb]; try reflexivity.
  exfalso. apply H. split; assumption.
Qed.

Lemma time_value_dec (t : Z) : {JsDate.time_value t} + {~ JsDate.time_value t}.
Proof.
  unfold JsDate.time_value.
  destruct (Z_le_dec (- JsDate.maxTime) t); destruct (Z_le_dec t JsDate.maxTime);
    (left; lia) || (right; lia).
Qed.

Lemma GET_fulfilled w (dt : Z) (rows : Value) :
  probe w = Fulfilled dt rows ->
  JsDate.time_value (clock w + dt) ->
  GET w = (Responds (Spec.success (JsDate.format (clock w + dt))),
           after_probe w).
Proof.
  intros Hp Ht. unfold after_probe, response_time, probed_store, GET.
  unfold probe in *.
  destruct (queryRaw ["SELECT 1"] [] (store w)) as [a st]. cbn in Hp. subst a.
  cbn [fst snd elapsed_of tick store clock console].
  unfold healthy_response. cbn [clock]. rewrite toISOString_clock by assumption.
  reflexivity.
Qed.

Lemma GET_rejected w (dt : Z) (error : Value) :
  probe w = Rejected dt error ->
  JsDate.time_value (clock w + dt) ->
  GET w = (Responds (Spec.failure (JsDate.format (clock w + dt))),
           console_error [VString "Health check failed:"; error]
             (after_probe w)).
Proof.
  intros Hp Ht. unfold after_probe, response_time, probed_store, GET.
  unfold probe in *.
  destruct (queryRaw ["SELECT 1"] [] (store w)) as [a st]. cbn in Hp. subst a.
  cbn [fst snd elapsed_of tick store clock console].
  unfold catch_block, console_error. cbn [clock].
  rewrite toISOString_clock by assumption. reflexivity.
Qed.

Lemma GET_pending w : probe w = Pending -> fst (GET w) = Hangs.
Proof.
  unfold probe, GET. destruct (queryRaw _ _ _) as [a st]. cbn.
  now intros ->.
Qed.

(** With a clock that shows no time value neither branch can build its
    timestamp, and the call is rejected. *)
Lemma GET_bad_clock w :
  settles (probe w) = true ->
  ~ JsDate.time_value (response_time w) ->
  fst (GET w) = Throws (VError "RangeError" "Invalid time value").
Proof.
  unfold response_time, probe, GET.
  destruct (queryRaw _ _ _) as [a st]. cbn [fst].
  destruct a as [dt rows | dt e |]; cbn [settles elapsed_of]; intros Hs Ht;
    try discriminate.
  - unfold healthy_response. cbn [tick clock].
    rewrite toISOString_bad_clock by assumption. cbn [bind].
    unfold catch_block, console_error. cbn [clock].
    rewrite toISOString_bad_clock by assumption. reflexivity.
  - unfold catch_block, console_error. cbn [tick clock].
    rewrite toISOString_bad_clock by assumption. reflexivity.
Qed.

(** Every response of the handler is one of the two of the interface. *)
Lemma GET_responds_inv w r (w' : World Store) :
  GET w = (Responds r, w') ->
  JsDate.time_value (response_time w) /\
  ((exists dt rows, probe w = Fulfilled dt rows /\
      r = Spec.success (JsDate.format (response_time w))) \/
   (exists dt error, probe w = Rejected dt error /\
      r = Spec.failure (JsDate.format (response_time w)))).
Proof.
  intros H.
  destruct (probe w) as [dt rows | dt e |] eqn:Hp.
  - destruct (time_value_dec (response_time w)) as [Ht | Ht].
    + split; [assumption |]. left. exists dt, rows. split; [reflexivity |].
      unfold response_time in *. rewrite Hp in *. cbn [elapsed_of] in *.
      rewrite (GET_fulfilled w dt rows Hp Ht) in H. congruence.
    + pose proof (GET_bad_clock w) as Hb. rewrite Hp in Hb.
      specialize (Hb eq_refl Ht). rewrite H in Hb. discriminate.
  - destruct (time_value_dec (response_time w)) as [Ht | Ht].
    + split; [assumption |]. right. exists dt, e. split; [reflexivity |].
      unfold response_time in *. rewrite Hp in *. cbn [elapsed_of] in *.
      rewrite (GET_rejected w dt e Hp Ht) in H. congruence.
    + pose proof (GET_bad_clock w) as Hb. rewrite Hp in Hb.
      specialize (Hb eq_refl Ht). rewrite H in Hb. discriminate.
  - pose proof (GET_pending w Hp) as Hh. rewrite H in Hh. discriminate.
Qed.

(** The outcome of a call is a function of how the probe ends and of the
    clock; the console and the rest of the store have no part in it. *)
Lemma GET_outcome_determined (w1 w2 : World Store) :
  probe w1 = probe w2 -> clock w1 = clock w2 -> fst (GET w1) = fst (GET w2).
Proof.
  intros Hp Hc.
  assert (Hr : response_time w1 = response_time w2)
    by (unfold response_time; congruence).
  destruct (probe w1) as [dt rows | dt e |] eqn:Hp1; symmetry in Hp.
  - destruct (time_value_dec (response_time w1)) as [Ht | Ht].
    + unfold response_time in Ht. rewrite Hp1 in Ht. cbn [elapsed_of] in Ht.
      rewrite (GET_fulfilled w1 dt rows Hp1 Ht).
      rewrite Hc in Ht. rewrite (GET_fulfilled w2 dt rows Hp Ht).
      cbn [fst]. now rewrite Hc.
    + rewrite (GET_bad_clock w1), (GET_bad_clock w2);
        rewrite <- ?Hr, ?Hp, ?Hp1; auto.
  - destruct (time_value_dec (response_time w1)) as [Ht | Ht].
    + unfold response_time in Ht. rewrite Hp1 in Ht. cbn [elapsed_of] in Ht.
      rewrite (GET_rejected w1 dt e Hp1 Ht).
      rewrite Hc in Ht. rewrite (GET_rejected w2 dt e Hp Ht).
      cbn [fst]. now rewrite Hc.
    + rewrite (GET_bad_clock w1), (GET_bad_clock w2);
        rewrite <- ?Hr, ?Hp, ?Hp1; auto.
  - now rewrite (GET_pending w1 Hp1), (GET_pending w2 Hp).
Qed.

End RouteFacts.

(** ** The claims about the handler

    The statements below are about calls whose probe settles, on a host
    whose clock shows a time value when the response is built.  The second
    condition is what ECMA-262 says of the current time; without it
    [toISOString] throws in both branches ([GET_bad_clock]).  A probe that
    never settles leaves the call hanging ([GET_pending]). *)

Section Claims.

Context {Store : Type} {db : DbClient Store}.

Implicit Types (w : World Store) (r : Response).

(** C1.  When the probe completes without an error (and the clock shows a
    time value, as the clock of a JavaScript host does), the handler returns
    a response with status 200 whose body has [status = "healthy"],
    [services.database = "connected"] and [services.api = "operational"]. *)
Theorem GET_probe_ok w (dt : Z) (rows : Value) :
  probe w = Fulfilled dt rows ->
  JsDate.time_value (clock w + dt) ->
  exists r w',
    GET w = (Responds r, w') /\
    status r = 200 /\
    field "status" r = Some (VString "healthy") /\
    service "database" r = Some (VString "connected") /\
    service "api" r = Some (VString "operational").
Proof.
  intros Hp Ht. eexists. eexists.
  split; [exact (GET_fulfilled w dt rows Hp Ht) |].
  repeat split.
Qed.

(** C2.  When the probe raises an error, the handler catches it, writes the
    cause to the error console and returns a response with status 503 whose
    body has [status = "unhealthy"], [services.database = "disconnected"],
    [services.api = "operational"] and the fixed [error] text. *)
Theorem GET_probe_fails w (dt : Z) (error : Value) :
  probe w = Rejected dt error ->
  JsDate.time_value (clock w + dt) ->
  exists r w',
    GET w = (Responds r, w') /\
    console w'
    = (console w ++
       [{| level := LogError;
           args := [VString "Health check failed:"; error] |}])%list /\
    status r = 503 /\
    field "status" r = Some (VString "unhealthy") /\
    service "database" r = Some (VString "disconnected") /\
    service "api" r = Some (VString "operational") /\
    field "error" r = Some (VString "Database connection failed").
Proof.
  intros Hp Ht. eexists. eexists.
  split; [exact (GET_rejected w dt error Hp Ht) |].
  repeat split.
Qed.

(** C3.  A call whose probe settles ends in one of two outcomes, healthy
    with 200 or unhealthy with 503; [status] is ["healthy"] exactly when
    every probe recorded under [services] succeeded, which is exactly when
    the probe of the store succeeded, and a failed probe forces
    ["unhealthy"] and 503. *)
Theorem GET_two_outcomes w :
  settles (probe w) = true ->
  JsDate.time_value (response_time w) ->
  exists r w',
    GET w = (Responds r, w') /\
    (field "status" r = Some (VString "healthy") <-> all_services_up r = true) /\
    (all_services_up r = true <-> succeeds (probe w) = true) /\
    (succeeds (probe w) = false ->
     field "status" r = Some (VString "unhealthy") /\ status r = 503) /\
    ((r = Spec.success (JsDate.format (response_time w)) /\
      status r = 200 /\ field "status" r = Some (VString "healthy")) \/
     (r = Spec.failure (JsDate.format (response_time w)) /\
      status r = 503 /\ field "status" r = Some (VString "unhealthy"))).
Proof.
  intros Hs Ht. unfold response_time in *.
  destruct (probe w) as [dt rows | dt e |] eqn:Hp; cbn [elapsed_of] in *;
    try discriminate.
  - eexists. eexists. split; [exact (GET_fulfilled w dt rows Hp Ht) |].
    repeat split; try reflexivity; try discriminate.
    left. repeat split.
  - eexists. eexists. split; [exact (GET_rejected w dt e Hp Ht) |].
    repeat split; try reflexivity; try discriminate.
    right. repeat split.
Qed.

(** C5.  Whether the probe succeeds or raises an error, the handler answers
    with a response; it does not throw. *)
Theorem GET_never_throws w :
  settles (probe w) = true ->
  JsDate.time_value (response_time w) ->
  exists r w', GET w = (Responds r, w').
Proof.
  intros Hs Ht. unfold response_time in *.
  destruct (probe w) as [dt rows | dt e |] eqn:Hp; cbn [elapsed_of] in *;
    try discriminate; eexists; eexists.
  - exact (GET_fulfilled w dt rows Hp Ht).
  - exact (GET_rejected w dt e Hp Ht).
Qed.

(** C6.  Whether the probe succeeds or fails, the body of the response has
    [services.api = "operational"]. *)
Theorem GET_api_operational w :
  settles (probe w) = true ->
  JsDate.time_value (response_time w) ->
  exists r w',
    GET w = (Responds r, w') /\
    service "api" r = Some (VString "operational").
Proof.
  intros Hs Ht. unfold response_time in *.
  destruct (probe w) as [dt rows | dt e |] eqn:Hp; cbn [elapsed_of] in *;
    try discriminate; eexists; eexists.
  - split; [exact (GET_fulfilled w dt rows Hp Ht) | reflexivity].
  - split; [exact (GET_rejected w dt e Hp Ht) | reflexivity].
Qed.

(** C7.  The body has an [error] property exactly in the unhealthy case:
    none when the probe succeeds, one when it fails. *)
Theorem GET_error_field w :
  settles (probe w) = true ->
  JsDate.time_value (response_time w) ->
  exists r w',
    GET w = (Responds r, w') /\
    (succeeds (probe w) = true -> field "error" r = None) /\
    (succeeds (probe w) = false ->
     exists text, field "error" r = Some (VString text)) /\
    (field "error" r <> None <->
     field "status" r = Some (VString "unhealthy")).
Proof.
  intros Hs Ht. unfold response_time in *.
  destruct (probe w) as [dt rows | dt e |] eqn:Hp; cbn [elapsed_of] in *;
    try discriminate; eexists; eexists.
  - split; [exact (GET_fulfilled w dt rows Hp Ht) |].
    cbn. repeat split; try discriminate; try congruence.
  - split; [exact (GET_rejected w dt e Hp Ht) |].
    cbn. repeat split; try discriminate; try congruence.
    intros _. eexists. reflexivity.
Qed.

(** C9.  In both branches the [timestamp] of the body is the ISO-8601
    rendering of the clock as read when the response is built; it is a
    valid datetime string and reads back as that very instant. *)
Theorem GET_timestamp w :
  settles (probe w) = true ->
  JsDate.time_value (response_time w) ->
  exists r w' text,
    GET w = (Responds r, w') /\
    field "timestamp" r = Some (VString text) /\
    JsDate.toISOString (JsDate.new_Date (response_time w)) = Normal text /\
    JsDate.is_iso8601 text = true /\
    JsDate.parse text = Some (response_time w).
Proof.
  intros Hs Ht.
  pose proof (JsDateFacts.parse_format _ Ht) as Hparse.
  pose proof (toISOString_clock _ Ht) as Hiso.
  unfold response_time in *.
  destruct (probe w) as [dt rows | dt e |] eqn:Hp; cbn [elapsed_of] in *;
    try discriminate; eexists; eexists; exists (JsDate.format (clock w + dt)).
  - split; [exact (GET_fulfilled w dt rows Hp Ht) |].
    unfold JsDate.is_iso8601. rewrite Hparse. repeat split. exact Hiso.
  - split; [exact (GET_rejected w dt e Hp Ht) |].
    unfold JsDate.is_iso8601. rewrite Hparse. repeat split. exact Hiso.
Qed.

(** C4, as amended.  Two calls whose probes raise two errors, with the same
    reading of the clock, get the same response: its [error] is the fixed,
    non-empty text ["Database connection failed"] whatever was thrown.  The
    text contains the message of the thrown error only when that message is
    itself a piece of the fixed text, and never a longer one. *)
Theorem failure_response_hides_cause (w1 w2 : World Store)
    (dt1 dt2 : Z) (e1 e2 : Value) :
  probe w1 = Rejected dt1 e1 ->
  probe w2 = Rejected dt2 e2 ->
  clock w1 + dt1 = clock w2 + dt2 ->
  JsDate.time_value (clock w1 + dt1) ->
  exists r w1' w2',
    GET w1 = (Responds r, w1') /\
    GET w2 = (Responds r, w2') /\
    field "error" r = Some (VString "Database connection failed") /\
    "Database connection failed" <> "" /\
    forall text m,
      field "error" r = Some (VString text) ->
      message_of e1 = Some m \/ message_of e2 = Some m ->
      (includes text m = includes "Database connection failed" m) /\
      ((String.length "Database connection failed" < String.length m)%nat ->
       includes text m = false).
Proof.
  intros Hp1 Hp2 Hc Ht. eexists. eexists. eexists.
  split; [exact (GET_rejected w1 dt1 e1 Hp1 Ht) |].
  split.
  - rewrite (GET_rejected w2 dt2 e2 Hp2) by (rewrite <- Hc; exact Ht).
    now rewrite Hc.
  - split; [reflexivity |]. split; [discriminate |].
    intros text m Hf _. cbn in Hf. injection Hf as <-.
    split; [reflexivity |]. apply includes_longer.
Qed.

(** C10.  The response does not depend on the inbound request: two requests
    handled in worlds with the same outcome of the probe and the same clock
    get the same answer, and in one world any two requests are handled
    alike. *)
Theorem handle_ignores_request (request1 request2 : Request)
    (w1 w2 : World Store) :
  probe w1 = probe w2 ->
  clock w1 = clock w2 ->
  fst (handle request1 w1) = fst (handle request2 w2) /\
  handle request1 w1 = handle request2 w1.
Proof.
  intros Hp Hc. split; [| reflexivity].
  unfold handle. now apply GET_outcome_determined.
Qed.

(** C8.  [N] calls in a row, each with a probe that succeeds, give [N]
    success responses that are equal once the timestamp is left out; each
    response is determined by the clock of its own call, the console is as
    it was before, and so is the store when the probe only reads. *)
Theorem serve_healthy_idempotent (requests : list (Z * Request)) :
  forall w,
  Forall (fun a => succeeds (probe a) = true /\
                   JsDate.time_value (response_time a))
    (arrivals requests w) ->
  exists rs w',
    serve requests w = (map Responds rs, w') /\
    List.length rs = List.length requests /\
    rs = map (fun a => Spec.success (JsDate.format (response_time a)))
           (arrivals requests w) /\
    map without_timestamp rs
    = repeat (without_timestamp (Spec.success "")) (List.length requests) /\
    console w' = console w /\
    (read_only_probe -> store w' = store w).
Proof.
  induction requests as [| [idle request] rest IH]; intros w Hall.
  - exists [], w. cbn. repeat split.
  - cbn [arrivals] in Hall. inversion Hall as [| a l [Hs Ht] Hrest]; subst.
    set (a := tick idle w) in *.
    destruct (probe a) as [dt rows | |] eqn:Hp; try discriminate.
    assert (Hg : GET a = (Responds (Spec.success (JsDate.format (response_time a))),
                          after_probe a)).
    { unfold response_time in *. rewrite Hp in *. cbn [elapsed_of] in *.
      exact (GET_fulfilled a dt rows Hp Ht). }
    unfold handle in Hrest. rewrite Hg in Hrest. cbn [snd] in Hrest.
    destruct (IH _ Hrest) as (rs & w' & Hserve & Hlen & Hrs & Hshape & Hcon & Hro).
    exists (Spec.success (JsDate.format (response_time a)) :: rs), w'.
    cbn [serve arrivals]. fold a. unfold handle. rewrite Hg, Hserve.
    cbn [snd map List.length repeat].
    repeat split.
    + now rewrite Hlen.
    + now rewrite <- Hrs.
    + now rewrite Hshape.
    + rewrite Hcon. reflexivity.
    + intros H. rewrite (Hro H). cbn. unfold probed_store. rewrite H.
      reflexivity.
Qed.

End Claims.

(** ** The claims on the sample worlds *)

Lemma sample_clock_is_time_value : JsDate.time_value 1793664000123.
Proof. vm_compute. split; discriminate. Defined.

Lemma GET_probe_ok_witness :
  probe world_up
  = Fulfilled 3 (VArray [VObject [("?column?", VNumber 1)]]) /\
  JsDate.time_value (clock world_up + 3) /\
  exists r w',
    GET world_up = (Responds r, w') /\
    status r = 200 /\
    field "status" r = Some (VString "healthy") /\
    service "database" r = Some (VString "connected") /\
    service "api" r = Some (VString "operational").
Proof.
  split; [reflexivity |]. split; [exact sample_clock_is_time_value |].
  apply (GET_probe_ok world_up 3 (VArray [VObject [("?column?", VNumber 1)]]));
    [reflexivity | exact sample_clock_is_time_value].
Defined.

Lemma GET_probe_fails_witness :
  probe world_down = Rejected 3 unreachable /\
  JsDate.time_value (clock world_down + 3) /\
  exists r w',
    GET world_down = (Responds r, w') /\
    console w'
    = (console world_down ++
       [{| level := LogError;
           args := [VString "Health check failed:"; unreachable] |}])%list /\
    status r = 503 /\
    field "status" r = Some (VString "unhealthy") /\
    service "database" r = Some (VString "disconnected") /\
    service "api" r = Some (VString "operational") /\
    field "error" r = Some (VString "Database connection failed").
Proof.
  split; [reflexivity |]. split; [exact sample_clock_is_time_value |].
  apply (GET_probe_fails world_down 3 unreachable);
    [reflexivity | exact sample_clock_is_time_value].
Defined.

Lemma GET_two_outcomes_witness :
  settles (probe world_down) = true /\
  JsDate.time_value (response_time world_down) /\
  exists r w',
    GET world_down = (Responds r, w') /\
    (field "status" r = Some (VString "healthy") <-> all_services_up r = true) /\
    (all_services_up r = true <-> succeeds (probe world_down) = true) /\
    (succeeds (probe world_down) = false ->
     field "status" r = Some (VString "unhealthy") /\ status r = 503) /\
    ((r = Spec.success (JsDate.format (response_time world_down)) /\
      status r = 200 /\ field "status" r = Some (VString "healthy")) \/
     (r = Spec.failure (JsDate.format (response_time world_down)) /\
      status r = 503 /\ field "status" r = Some (VString "unhealthy"))).
Proof.
  split; [reflexivity |]. split; [exact sample_clock_is_time_value |].
  apply (GET_two_outcomes world_down); [reflexivity | exact sample_clock_is_time_value].
Defined.

Lemma GET_never_throws_witness :
  settles (probe world_down) = true /\
  JsDate.time_value (response_time world_down) /\
  exists r w', GET world_down = (Responds r, w').
Proof.
  split; [reflexivity |]. split; [exact sample_clock_is_time_value |].
  apply (GET_never_throws world_down); [reflexivity | exact sample_clock_is_time_value].
Defined.

Lemma GET_api_operational_witness :
  settles (probe world_down) = true /\
  JsDate.time_value (response_time world_down) /\
  exists r w',
    GET world_down = (Responds r, w') /\
    service "api" r = Some (VString "operational").
Proof.
  split; [reflexivity |]. split; [exact sample_clock_is_time_value |].
  apply (GET_api_operational world_down); [reflexivity | exact sample_clock_is_time_value].
Defined.

Lemma GET_error_field_witness :
  settles (probe world_up) = true /\
  JsDate.time_value (response_time world_up) /\
  exists r w',
    GET world_up = (Responds r, w') /\
    (succeeds (probe world_up) = true -> field "error" r = None) /\
    (succeeds (probe world_up) = false ->
     exists text, field "error" r = Some (VString text)) /\
    (field "error" r <> None <->
     field "status" r = Some (VString "unhealthy")).
Proof.
  split; [reflexivity |]. split; [exact sample_clock_is_time_value |].
  apply (GET_error_field world_up); [reflexivity | exact sample_clock_is_time_value].
Defined.

Lemma GET_timestamp_witness :
  settles (probe world_up) = true /\
  JsDate.time_value (response_time world_up) /\
  exists r w' text,
    GET world_up = (Responds r, w') /\
    field "timestamp" r = Some (VString text) /\
    JsDate.toISOString (JsDate.new_Date (response_time world_up))
    = Normal text /\
    JsDate.is_iso8601 text = true /\
    JsDate.parse text = Some (response_time world_up).
Proof.
  split; [reflexivity |]. split; [exact sample_clock_is_time_value |].
  apply (GET_timestamp world_up); [reflexivity | exact sample_clock_is_time_value].
Defined.

Lemma failure_response_hides_cause_witness :
  probe world_down = Rejected 3 unreachable /\
  probe world_refused = Rejected 2 (VError "Error" "connection failed") /\
  clock world_down + 3 = clock world_refused + 2 /\
  JsDate.time_value (clock world_down + 3) /\
  exists r w1' w2',
    GET world_down = (Responds r, w1') /\
    GET world_refused = (Responds r, w2') /\
    field "error" r = Some (VString "Database connection failed").
Proof.
  split; [reflexivity |]. split; [reflexivity |]. split; [reflexivity |].
  split; [exact sample_clock_is_time_value |].
  destruct (failure_response_hides_cause world_down world_refused 3 2
              unreachable (VError "Error" "connection failed"))
    as (r & w1' & w2' & H1 & H2 & H3 & _);
    [reflexivity | reflexivity | reflexivity | exact sample_clock_is_time_value |].
  exists r, w1', w2'. repeat split; assumption.
Defined.

(** C4 as it is worded fails: a probe that rejects with
    [Error("connection failed")] is answered with an [error] text that
    contains that very message. *)
Lemma error_text_contains_raw_message :
  exists r w',
    GET world_refused = (Responds r, w') /\
    probe world_refused = Rejected 2 (VError "Error" "connection failed") /\
    ~ (forall text m,
         field "error" r = Some (VString text) ->
         message_of (VError "Error" "connection failed") = Some m ->
         includes text m = false).
Proof.
  eexists. eexists. split; [reflexivity |]. split; [reflexivity |].
  intros H.
  specialize (H "Database connection failed" "connection failed"
                eq_refl eq_refl).
  vm_compute in H. discriminate.
Qed.

Lemma handle_ignores_request_witness :
  probe world_up = probe world_up /\
  clock world_up = clock world_up /\
  fst (handle sample_request world_up) = fst (handle other_request world_up) /\
  handle sample_request world_up = handle other_request world_up.
Proof.
  split; [reflexivity |]. split; [reflexivity |].
  apply (handle_ignores_request sample_request other_request world_up
           world_up); reflexivity.
Defined.

Lemma three_arrivals_healthy :
  Forall (fun a => succeeds (probe a) = true /\
                   JsDate.time_value (response_time a))
    (arrivals three_requests world_up).
Proof.
  repeat (constructor;
          [split; [reflexivity | vm_compute; split; discriminate] |]).
  constructor.
Defined.

Lemma pg_read_only : read_only_probe (db := pg_client).
Proof. intros s. cbv [queryRaw pg_client]. now destruct (reachable s). Defined.

Lemma serve_healthy_idempotent_witness :
  Forall (fun a => succeeds (probe a) = true /\
                   JsDate.time_value (response_time a))
    (arrivals three_requests world_up) /\
  exists rs w',
    serve three_requests world_up = (map Responds rs, w') /\
    List.length rs = 3%nat /\
    map without_timestamp rs
    = repeat (without_timestamp (Spec.success "")) 3 /\
    console w' = console world_up /\
    store w' = store world_up.
Proof.
  split; [exact three_arrivals_healthy |].
  destruct (serve_healthy_idempotent three_requests world_up
              three_arrivals_healthy)
    as (rs & w' & H1 & H2 & _ & H4 & H5 & H6).
  exists rs, w'. repeat split; try assumption. exact (H6 pg_read_only).
Defined.

(** * Further properties of the handler *)

(** ** The layout of a timestamp *)

Lemma is_digit_mod10 (x : Z) : is_digit (JsDate.digit (x mod 10)) = true.
Proof.
  unfold is_digit. rewrite JsDateFacts.digit_val_digit; [reflexivity |].
  Z.to_euclidean_division_equations; lia.
Qed.

Lemma follows_digit (layout s : string) (x : Z) :
  follows layout s = true ->
  follows (String "d" layout) (String (JsDate.digit (x mod 10)) s) = true.
Proof.
  intros H. cbn [follows]. rewrite Ascii.eqb_refl, is_digit_mod10. exact H.
Qed.

Lemma follows_literal (c : ascii) (layout s : string) :
  Ascii.eqb c "d" = false ->
  follows layout s = true ->
  follows (String c layout) (String c s) = true.
Proof.
  intros Hc H. cbn [follows]. now rewrite Hc, Ascii.eqb_refl.
Qed.

Ltac follow_layout :=
  repeat first
    [ apply follows_digit
    | apply follows_literal; [reflexivity |] ];
  reflexivity.

Lemma common_year (t : Z) :
  first_common_instant <= t <= last_common_instant ->
  0 <= JsDate.YearFromTime t <= 9999.
Proof.
  unfold first_common_instant, last_common_instant. intros Ht.
  pose proof (JsDateFacts.YearFromTime_spec t) as H.
  assert (Hd : -719528 <= JsDate.Day t <= 2932896)
    by (unfold JsDate.Day, JsDate.msPerDay;
        Z.to_euclidean_division_equations; lia).
  revert H. generalize (JsDate.YearFromTime t) as y. intros y H.
  unfold JsDate.DayFromYear in H. Z.to_euclidean_division_equations; lia.
Qed.

(** The formatted time value follows the layout its year calls for. *)
Lemma format_layout (t : Z) :
  follows
    (if (0 <=? JsDate.YearFromTime t) && (JsDate.YearFromTime t <=? 9999)
     then layout_common
     else if JsDate.YearFromTime t <? 0 then layout_earlier
     else layout_later)
    (JsDate.format t) = true.
Proof.
  unfold JsDate.format, JsDate.year_field.
  destruct ((0 <=? JsDate.YearFromTime t) && (JsDate.YearFromTime t <=? 9999)).
  - cbn [JsDate.pad append]. unfold layout_common. follow_layout.
  - destruct (JsDate.YearFromTime t <? 0); cbn [JsDate.pad append].
    + unfold layout_earlier. follow_layout.
    + unfold layout_later. follow_layout.
Qed.

Lemma follows_length (layout : string) : forall s : string,
  follows layout s = true -> String.length s = String.length layout.
Proof.
  induction layout as [|p layout IH]; intros [|c s]; cbn; intros H;
    try discriminate; [reflexivity |].
  apply andb_true_iff in H. destruct H as [_ H]. now rewrite (IH s H).
Qed.

Lemma format_injective (t1 t2 : Z) :
  JsDate.time_value t1 -> JsDate.time_value t2 ->
  JsDate.format t1 = JsDate.format t2 -> t1 = t2.
Proof.
  intros H1 H2 E. apply JsDateFacts.parse_format in H1, H2.
  rewrite E in H1. congruence.
Qed.

(** ** Timestamps in order *)

Module JsDateOrder.
Import JsDate JsDateFacts.

Lemma compare_digit (a b : Z) :
  0 <= a <= 9 -> 0 <= b <= 9 ->
  Ascii.compare (digit a) (digit b) = (a ?= b).
Proof.
  intros Ha Hb. revert b Hb. pattern a. apply by_digit; [| exact Ha].
  intros i Hi b Hb. pattern b. apply by_digit; [| exact Hb].
  intros j Hj.
  do 10 (destruct i as [|i];
         [do 10 (destruct j as [|j]; [reflexivity |]); lia |]).
  lia.
Qed.

Lemma compare_same_char (c : ascii) : Ascii.compare c c = Eq.
Proof. unfold Ascii.compare. apply N.compare_refl. Qed.

Lemma compare_same (s : string) : String.compare s s = Eq.
Proof.
  induction s as [|c s IH]; cbn; [reflexivity |].
  now rewrite compare_same_char.
Qed.

Lemma compare_same_prefix (p r1 r2 : string) :
  String.compare (p ++ r1) (p ++ r2) = String.compare r1 r2.
Proof.
  induction p as [|c p IH]; cbn; [reflexivity |].
  now rewrite compare_same_char.
Qed.

(** Fields of the same width compare as the numbers they show. *)
Lemma compare_pad_lt (w : nat) : forall (n1 n2 : Z) (r1 r2 : string),
  0 <= n1 -> n1 < n2 -> n2 < 10 ^ Z.of_nat w ->
  String.compare (pad w n1 ++ r1) (pad w n2 ++ r2) = Lt.
Proof.
  induction w as [|w IH]; intros n1 n2 r1 r2 H0 Hlt Hhi.
  - cbn in Hhi. lia.
  - rewrite Nat2Z.inj_succ, Z.pow_succ_r in Hhi by lia.
    cbn [pad]. rewrite !append_assoc.
    destruct (Z.eq_dec (n1 / 10) (n2 / 10)) as [E | N].
    + rewrite E, compare_same_prefix. cbn [append String.compare].
      rewrite compare_digit by (Z.to_euclidean_division_equations; lia).
      replace (n1 mod 10 ?= n2 mod 10) with Lt; [reflexivity |].
      symmetry. apply Z.compare_lt_iff.
      Z.to_euclidean_division_equations; lia.
    + apply IH; Z.to_euclidean_division_equations; lia.
Qed.

Lemma Day_mono (t1 t2 : Z) : t1 <= t2 -> Day t1 <= Day t2.
Proof.
  intros H. unfold Day, msPerDay. Z.to_euclidean_division_equations; lia.
Qed.

Lemma YearFromTime_mono (t1 t2 : Z) :
  Day t1 <= Day t2 -> YearFromTime t1 <= YearFromTime t2.
Proof.
  intros H.
  pose proof (YearFromTime_spec t1) as [L1 _].
  pose proof (YearFromTime_spec t2) as [_ U2].
  destruct (Z_le_gt_dec (YearFromTime t1) (YearFromTime t2)) as [|G];
    [assumption |].
  assert (M : DayFromYear (YearFromTime t2 + 1) <= DayFromYear (YearFromTime t1))
    by (apply DayFromYear_mono; lia).
  lia.
Qed.

(** An earlier day has the smaller year, or in the same year the smaller
    month, or in the same month the smaller day of the month. *)
Lemma date_fields_lt (t1 t2 : Z) :
  Day t1 < Day t2 ->
  YearFromTime t1 < YearFromTime t2 \/
  YearFromTime t1 = YearFromTime t2 /\
  (MonthFromTime t1 < MonthFromTime t2 \/
   MonthFromTime t1 = MonthFromTime t2 /\ DateFromTime t1 < DateFromTime t2).
Proof.
  intros H.
  pose proof (YearFromTime_mono t1 t2 ltac:(lia)) as Hy.
  destruct (Z.eq_dec (YearFromTime t1) (YearFromTime t2)) as [E | N];
    [right; split; [exact E |] | left; lia].
  pose proof (DayWithinYear_range t1) as R1.
  pose proof (DayWithinYear_range t2) as R2.
  pose proof (LeapDays_range (YearFromTime t2)) as Hl.
  assert (Hd : DayWithinYear t1 < DayWithinYear t2)
    by (unfold DayWithinYear; rewrite E; lia).
  unfold DateFromTime, MonthFromTime.
  assert (El : InLeapYear t1 = InLeapYear t2)
    by (unfold InLeapYear; now rewrite E).
  rewrite El in *. fold (InLeapYear t2) in Hl.
  revert Hd R1 R2 Hl.
  generalize (DayWithinYear t1) (DayWithinYear t2) (InLeapYear t2).
  intros d1 d2 l Hd R1 R2 Hl.
  repeat match goal with
         | |- context [?a <? ?b] => destruct (Z.ltb_spec a b)
         end; cbn [DaysBeforeMonth]; lia.
Qed.

Lemma date_fields_eq (t1 t2 : Z) :
  Day t1 = Day t2 ->
  YearFromTime t1 = YearFromTime t2 /\
  MonthFromTime t1 = MonthFromTime t2 /\
  DateFromTime t1 = DateFromTime t2.
Proof.
  intros H.
  assert (Ey : YearFromTime t1 = YearFromTime t2)
    by (unfold YearFromTime; now rewrite H).
  assert (Ed : DayWithinYear t1 = DayWithinYear t2)
    by (unfold DayWithinYear; now rewrite H, Ey).
  assert (El : InLeapYear t1 = InLeapYear t2)
    by (unfold InLeapYear; now rewrite Ey).
  assert (Em : MonthFromTime t1 = MonthFromTime t2)
    by (unfold MonthFromTime; now rewrite Ed, El).
  repeat split; try assumption.
  unfold DateFromTime. now rewrite Ed, El, Em.
Qed.

(** On one day, an earlier instant has the smaller hour, or minute, or
    second, or millisecond. *)
Lemma time_fields_lt (t1 t2 : Z) :
  Day t1 = Day t2 -> t1 < t2 ->
  HourFromTime t1 < HourFromTime t2 \/
  HourFromTime t1 = HourFromTime t2 /\
  (MinFromTime t1 < MinFromTime t2 \/
   MinFromTime t1 = MinFromTime t2 /\
   (SecFromTime t1 < SecFromTime t2 \/
    SecFromTime t1 = SecFromTime t2 /\ msFromTime t1 < msFromTime t2)).
Proof.
  unfold Day, HourFromTime, MinFromTime, SecFromTime, msFromTime, msPerDay,
    msPerHour, msPerMinute, msPerSecond.
  intros Hd Hlt. Z.to_euclidean_division_equations. lia.
Qed.

Ltac smaller_field :=
  apply compare_pad_lt;
  [ lia | lia
  | first [ change (10 ^ Z.of_nat 2) with 100
          | change (10 ^ Z.of_nat 3) with 1000
          | change (10 ^ Z.of_nat 4) with 10000 ]; lia ].

(** Between the years 0 and 9999 the formatted time values are ordered, as
    strings, like the instants they show. *)
Lemma format_lt (t1 t2 : Z) :
  0 <= YearFromTime t1 -> YearFromTime t2 <= 9999 -> t1 < t2 ->
  String.compare (format t1) (format t2) = Lt.
Proof.
  intros Hy1 Hy2 Hlt.
  pose proof (YearFromTime_mono t1 t2 (Day_mono t1 t2 ltac:(lia))) as Hy.
  pose proof (MonthFromTime_range t1) as Hm1.
  pose proof (MonthFromTime_range t2) as Hm2.
  pose proof (DateFromTime_range t1) as Hd1.
  pose proof (DateFromTime_range t2) as Hd2.
  pose proof (DaysInMonth_le_31 (MonthFromTime t2) _
                (LeapDays_range (YearFromTime t2))) as Hd31.
  fold (InLeapYear t2) in Hd31.
  destruct (time_fields_range t1) as (Hh1 & Hmi1 & Hs1 & Hms1).
  destruct (time_fields_range t2) as (Hh2 & Hmi2 & Hs2 & Hms2).
  unfold format, year_field.
  destruct (Z.leb_spec 0 (YearFromTime t1)); [| lia].
  destruct (Z.leb_spec (YearFromTime t1) 9999); [| lia].
  destruct (Z.leb_spec 0 (YearFromTime t2)); [| lia].
  destruct (Z.leb_spec (YearFromTime t2) 9999); [| lia].
  cbn [andb].
  pose proof (Day_mono t1 t2 ltac:(lia)) as Hday.
  destruct (Z.eq_dec (Day t1) (Day t2)) as [Ed | Nd].
  - destruct (date_fields_eq t1 t2 Ed) as (Ey & Em & Edate).
    rewrite Ey, Em, Edate.
    do 6 rewrite compare_same_prefix.
    destruct (time_fields_lt t1 t2 Ed Hlt)
      as [Hf | [Eh [Hf | [Emi [Hf | [Es Hf]]]]]].
    + smaller_field.
    + rewrite Eh. do 2 rewrite compare_same_prefix. smaller_field.
    + rewrite Eh, Emi. do 4 rewrite compare_same_prefix. smaller_field.
    + rewrite Eh, Emi, Es. do 6 rewrite compare_same_prefix. smaller_field.
  - destruct (date_fields_lt t1 t2 ltac:(lia)) as [Hf | [Ey [Hf | [Em Hf]]]].
    + smaller_field.
    + rewrite Ey. do 2 rewrite compare_same_prefix. smaller_field.
    + rewrite Ey, Em. do 4 rewrite compare_same_prefix. smaller_field.
Qed.

Lemma format_compare (t1 t2 : Z) :
  0 <= YearFromTime t1 <= 9999 -> 0 <= YearFromTime t2 <= 9999 ->
  String.compare (format t1) (format t2) = (t1 ?= t2).
Proof.
  intros H1 H2. destruct (Z.compare_spec t1 t2) as [E | L | G].
  - subst. apply compare_same.
  - apply format_lt; lia.
  - rewrite String.compare_antisym, format_lt by lia. reflexivity.
Qed.

End JsDateOrder.

Section MoreRouteFacts.

Context {Store : Type} {db : DbClient Store}.

Implicit Types (w : World Store) (r : Response).

Lemma GET_settled w :
  settles (probe w) = true ->
  JsDate.time_value (response_time w) ->
  GET w = (Responds (expected_response w),
           {| store := probed_store w;
              clock := response_time w;
              console := (console w ++ expected_log w)%list |}).
Proof.
  intros Hs Ht.
  destruct (probe w) as [dt rows | dt e |] eqn:Hp; try discriminate.
  - rewrite (GET_fulfilled w dt rows Hp)
      by (unfold response_time in Ht; now rewrite Hp in Ht).
    unfold expected_response, expected_log, after_probe, response_time.
    rewrite Hp. cbn [succeeds elapsed_of]. now rewrite app_nil_r.
  - rewrite (GET_rejected w dt e Hp)
      by (unfold response_time in Ht; now rewrite Hp in Ht).
    unfold expected_response, expected_log, after_probe, response_time.
    rewrite Hp. reflexivity.
Qed.

Lemma serve_settled (requests : list (Z * Request)) : forall w,
  Forall (fun a => settles (probe a) = true /\
                   JsDate.time_value (response_time a))
    (arrivals requests w) ->
  fst (serve requests w)
  = map (fun a => Responds (expected_response a)) (arrivals requests w) /\
  console (snd (serve requests w))
  = (console w ++ List.concat (map expected_log (arrivals requests w)))%list.
Proof.
  induction requests as [| [idle request] rest IH]; intros w Hall.
  - cbn. now rewrite app_nil_r.
  - cbn [arrivals] in Hall. inversion Hall as [| a l [Hs Ht] Hrest]; subst.
    cbn [serve arrivals]. set (a := tick idle w) in *.
    unfold handle in *. rewrite (GET_settled a Hs Ht) in *.
    cbn [snd] in Hrest. destruct (IH _ Hrest) as [Hout Hcon].
    destruct (serve rest _) as [os w'] eqn:Hserve. cbn [fst snd] in *.
    split.
    + cbn [map]. now rewrite Hout.
    + rewrite Hcon. cbn [console map List.concat].
      now rewrite <- app_assoc.
Qed.

End MoreRouteFacts.

Section Extras.

Context {Store : Type} {db : DbClient Store}.

Implicit Types (w : World Store) (r : Response).

(** X1.  The handler sets no deadline of its own: the call hangs exactly
    when the probe never settles, and then nothing is written to the
    console. *)
Theorem GET_hangs_iff_pending w :
  (fst (GET w) = Hangs <-> probe w = Pending) /\
  (fst (GET w) = Hangs -> console (snd (GET w)) = console w).
Proof.
  assert (Hiff : fst (GET w) = Hangs <-> probe w = Pending).
  { split; [| apply GET_pending].
    intros H. destruct (probe w) as [dt rows | dt e |] eqn:Hp;
      [exfalso | exfalso | reflexivity].
    all: destruct (time_value_dec (response_time w)) as [Ht | Ht];
      [ rewrite GET_settled in H by (rewrite ?Hp; auto); discriminate
      | rewrite GET_bad_clock in H by (rewrite ?Hp; auto); discriminate ]. }
  split; [exact Hiff |].
  intros H. apply Hiff in H. revert H. unfold probe, GET.
  destruct (queryRaw _ _ _) as [a st]. cbn [fst]. now intros ->.
Qed.

(** X2.  A call writes to the console exactly when its probe fails: one
    error line carrying the thrown value, and nothing for a healthy
    check. *)
Theorem GET_logs_iff_failure w :
  settles (probe w) = true ->
  JsDate.time_value (response_time w) ->
  console (snd (GET w)) = (console w ++ expected_log w)%list /\
  (console (snd (GET w)) = console w <-> succeeds (probe w) = true) /\
  List.length (console (snd (GET w)))
  = (List.length (console w) + if succeeds (probe w) then 0 else 1)%nat.
Proof.
  intros Hs Ht. rewrite (GET_settled w Hs Ht). cbn [snd console].
  split; [reflexivity |]. unfold expected_log.
  destruct (probe w) as [dt rows | dt e |]; cbn [succeeds settles] in *;
    try discriminate.
  - rewrite app_nil_r. repeat split. lia.
  - rewrite length_app. cbn [List.length]. split; [| reflexivity].
    split; [| discriminate].
    intros H. apply (f_equal (@List.length _)) in H.
    rewrite length_app in H. cbn in H. lia.
Qed.

(** X3.  Whatever the outcome, the handler reaches the store through one
    [SELECT 1] and nothing else: the store after the call is the store
    after that single probe (there is no retry), and the clock has moved by
    the time the probe took. *)
Theorem GET_single_probe w :
  store (snd (GET w)) = probed_store w /\
  clock (snd (GET w)) = clock w + elapsed_of (probe w).
Proof.
  unfold probed_store, probe, GET.
  destruct (queryRaw ["SELECT 1"] [] (store w)) as [a st]. cbn [fst snd].
  destruct a as [dt rows | dt e |]; cbn [elapsed_of].
  - destruct (healthy_response _) as [r | e]; cbn.
    + split; reflexivity.
    + unfold catch_block. destruct (bind _ _); cbn; split; reflexivity.
  - unfold catch_block. destruct (bind _ _); cbn; split; reflexivity.
  - cbn. split; [reflexivity | lia].
Qed.

(** X4.  The rows the query returns are discarded: two calls whose probes
    succeed with different results, after different delays, get the same
    outcome when their responses are built at the same instant. *)
Theorem GET_ignores_rows (w1 w2 : World Store) (dt1 dt2 : Z)
    (rows1 rows2 : Value) :
  probe w1 = Fulfilled dt1 rows1 ->
  probe w2 = Fulfilled dt2 rows2 ->
  clock w1 + dt1 = clock w2 + dt2 ->
  fst (GET w1) = fst (GET w2).
Proof.
  intros Hp1 Hp2 Hc.
  assert (Hr : response_time w1 = response_time w2)
    by (unfold response_time; rewrite Hp1, Hp2; exact Hc).
  destruct (time_value_dec (response_time w1)) as [Ht | Ht].
  - rewrite (GET_settled w1), (GET_settled w2);
      rewrite <- ?Hr, ?Hp1, ?Hp2; auto.
    cbn [fst]. unfold expected_response. now rewrite Hp1, Hp2, Hr.
  - rewrite (GET_bad_clock w1), (GET_bad_clock w2);
      rewrite <- ?Hr, ?Hp1, ?Hp2; auto.
Qed.

(** X5.  Every response the handler gives has one of two shapes: the
    properties [status], [timestamp], [services] in that order, or these
    with [error] before [services]; [services] has the two entries
    [database] and [api]; [error] is there exactly with status 503. *)
Theorem GET_body_schema w r (w' : World Store) :
  GET w = (Responds r, w') ->
  (keys (body r) = ["status"; "timestamp"; "services"] /\ status r = 200 \/
   keys (body r) = ["status"; "timestamp"; "error"; "services"] /\
   status r = 503) /\
  exists entries,
    field "services" r = Some entries /\ keys entries = ["database"; "api"].
Proof.
  intros H. apply GET_responds_inv in H.
  destruct H as [_ [(dt & rows & _ & ->) | (dt & e & _ & ->)]].
  - split; [left; split; reflexivity |]. eexists. split; reflexivity.
  - split; [right; split; reflexivity |]. eexists. split; reflexivity.
Qed.


(** X7.  The timestamp keeps the clock to the millisecond: two responses
    carry the same timestamp exactly when they were built at the same
    instant. *)
Theorem GET_timestamp_injective (w1 w2 : World Store) :
  settles (probe w1) = true ->
  settles (probe w2) = true ->
  JsDate.time_value (response_time w1) ->
  JsDate.time_value (response_time w2) ->
  exists r1 r2,
    fst (GET w1) = Responds r1 /\
    fst (GET w2) = Responds r2 /\
    (field "timestamp" r1 = field "timestamp" r2 <->
     response_time w1 = response_time w2).
Proof.
  intros Hs1 Hs2 Ht1 Ht2.
  exists (expected_response w1), (expected_response w2).
  rewrite (GET_settled w1 Hs1 Ht1), (GET_settled w2 Hs2 Ht2).
  split; [reflexivity |]. split; [reflexivity |].
  assert (F : forall w, field "timestamp" (expected_response w)
                        = Some (VString (JsDate.format (response_time w))))
    by (intros w; unfold expected_response; now destruct (succeeds (probe w))).
  rewrite !F. split.
  - intros E. injection E as E. now apply format_injective.
  - now intros ->.
Qed.

(** X8.  Over a run of calls the console gains one error line for each
    failed probe, in the order of the calls, each with the value that probe
    threw, and nothing else. *)
Theorem serve_console_log (requests : list (Z * Request)) w :
  Forall (fun a => settles (probe a) = true /\
                   JsDate.time_value (response_time a))
    (arrivals requests w) ->
  console (snd (serve requests w))
  = (console w ++ List.concat (map expected_log (arrivals requests w)))%list /\
  List.length (console (snd (serve requests w)))
  = (List.length (console w) +
     List.length
       (filter (fun a => negb (succeeds (probe a))) (arrivals requests w)))%nat.
Proof.
  intros Hall. destruct (serve_settled requests w Hall) as [_ Hcon].
  split; [exact Hcon |]. rewrite Hcon, length_app. f_equal.
  clear Hcon. induction Hall as [| a l [Hs _] _ IH]; [reflexivity |].
  cbn [map List.concat filter]. rewrite length_app, IH.
  unfold expected_log.
  destruct (probe a); cbn [succeeds negb settles] in *; try discriminate;
    reflexivity.
Qed.

(** X9.  A failure does not stick: in a run of calls each response reports
    the probe of its own call, 200 and healthy when that probe succeeded,
    503 and unhealthy when it failed, whatever the earlier calls met. *)
Theorem serve_no_sticky_failure (requests : list (Z * Request)) w :
  Forall (fun a => settles (probe a) = true /\
                   JsDate.time_value (response_time a))
    (arrivals requests w) ->
  exists rs,
    fst (serve requests w) = map Responds rs /\
    map status rs
    = map (fun a => if succeeds (probe a) then 200 else 503)
        (arrivals requests w) /\
    map (field "status") rs
    = map (fun a => Some (VString (if succeeds (probe a)
                                   then "healthy" else "unhealthy")))
        (arrivals requests w).
Proof.
  intros Hall. destruct (serve_settled requests w Hall) as [Hout _].
  exists (map expected_response (arrivals requests w)).
  rewrite Hout, !map_map. split; [reflexivity |].
  split; apply map_ext; intros a; unfold expected_response;
    now destruct (succeeds (probe a)).
Qed.

(** X10.  Between the years 0 and 9999 timestamps sort like the instants
    they show: comparing the timestamps of two responses as strings gives
    the order in which the responses were built. *)
Theorem GET_timestamps_sort (w1 w2 : World Store) :
  settles (probe w1) = true ->
  settles (probe w2) = true ->
  first_common_instant <= response_time w1 <= last_common_instant ->
  first_common_instant <= response_time w2 <= last_common_instant ->
  exists r1 r2 text1 text2,
    fst (GET w1) = Responds r1 /\
    fst (GET w2) = Responds r2 /\
    field "timestamp" r1 = Some (VString text1) /\
    field "timestamp" r2 = Some (VString text2) /\
    String.compare text1 text2 = (response_time w1 ?= response_time w2) /\
    (String.ltb text1 text2 = true <-> response_time w1 < response_time w2).
Proof.
  intros Hs1 Hs2 Hc1 Hc2.
  assert (Ht1 : JsDate.time_value (response_time w1))
    by (unfold JsDate.time_value, JsDate.maxTime, first_common_instant,
          last_common_instant in *; lia).
  assert (Ht2 : JsDate.time_value (response_time w2))
    by (unfold JsDate.time_value, JsDate.maxTime, first_common_instant,
          last_common_instant in *; lia).
  exists (expected_response w1), (expected_response w2),
    (JsDate.format (response_time w1)), (JsDate.format (response_time w2)).
  rewrite (GET_settled w1 Hs1 Ht1), (GET_settled w2 Hs2 Ht2).
  assert (F : forall w, field "timestamp" (expected_response w)
                        = Some (VString (JsDate.format (response_time w))))
    by (intros w; unfold expected_response; now destruct (succeeds (probe w))).
  rewrite !F.
  pose proof (JsDateOrder.format_compare _ _ (common_year _ Hc1)
                (common_year _ Hc2)) as Hcmp.
  repeat split; try assumption.
  - unfold String.ltb. rewrite Hcmp.
    destruct (Z.compare_spec (response_time w1) (response_time w2));
      intros; try discriminate; assumption.
  - intros Hlt. unfold String.ltb. rewrite Hcmp.
    now apply Z.compare_lt_iff in Hlt as ->.
Qed.

End Extras.

(** ** The further properties on the sample worlds *)

Lemma sample_clock_is_common :
  first_common_instant <= 1793664000123 <= last_common_instant.
Proof. vm_compute. split; discriminate. Defined.

Lemma GET_logs_iff_failure_witness :
  settles (probe world_down) = true /\
  JsDate.time_value (response_time world_down) /\
  console (snd (GET world_down)) = [failure_entry unreachable] /\
  List.length (console (snd (GET world_down))) = 1%nat.
Proof.
  split; [reflexivity |]. split; [exact sample_clock_is_time_value |].
  destruct (GET_logs_iff_failure world_down) as (H1 & _ & H3);
    [reflexivity | exact sample_clock_is_time_value |].
  split; [exact H1 | exact H3].
Defined.

Lemma GET_ignores_rows_witness :
  probe world_one_row
  = Fulfilled 3 (VArray [VObject [("?column?", VNumber 1)]]) /\
  probe world_no_row = Fulfilled 1 (VArray []) /\
  clock world_one_row + 3 = clock world_no_row + 1 /\
  fst (GET world_one_row) = fst (GET world_no_row).
Proof.
  split; [reflexivity |]. split; [reflexivity |]. split; [reflexivity |].
  apply (GET_ignores_rows world_one_row world_no_row 3 1
           (VArray [VObject [("?column?", VNumber 1)]]) (VArray []));
    reflexivity.
Defined.

Lemma GET_body_schema_witness :
  GET world_down
  = (Responds (Spec.failure "2026-11-03T00:00:00.123Z"),
     snd (GET world_down)) /\
  keys (body (Spec.failure "2026-11-03T00:00:00.123Z"))
  = ["status"; "timestamp"; "error"; "services"].
Proof.
  assert (E : GET world_down
              = (Responds (Spec.failure "2026-11-03T00:00:00.123Z"),
                 snd (GET world_down))) by reflexivity.
  split; [exact E |].
  destruct (GET_body_schema world_down _ _ E)
    as [[[H _] | [H _]] _]; [discriminate H | exact H].
Defined.


Lemma GET_timestamp_injective_witness :
  settles (probe world_up) = true /\
  settles (probe world_refused) = true /\
  JsDate.time_value (response_time world_up) /\
  JsDate.time_value (response_time world_refused) /\
  exists r1 r2,
    fst (GET world_up) = Responds r1 /\
    fst (GET world_refused) = Responds r2 /\
    (field "timestamp" r1 = field "timestamp" r2 <->
     response_time world_up = response_time world_refused).
Proof.
  split; [reflexivity |]. split; [reflexivity |].
  split; [exact sample_clock_is_time_value |].
  split; [exact sample_clock_is_time_value |].
  apply (GET_timestamp_injective world_up world_refused);
    first [reflexivity | exact sample_clock_is_time_value].
Defined.

Lemma flaky_arrivals_settle :
  Forall (fun a => settles (probe a) = true /\
                   JsDate.time_value (response_time a))
    (arrivals three_requests world_flaky).
Proof.
  repeat (constructor;
          [split; [reflexivity | vm_compute; split; discriminate] |]).
  constructor.
Defined.

Lemma serve_console_log_witness :
  Forall (fun a => settles (probe a) = true /\
                   JsDate.time_value (response_time a))
    (arrivals three_requests world_flaky) /\
  console (snd (serve three_requests world_flaky))
  = [failure_entry unreachable; failure_entry (VError "Error" "timeout")] /\
  List.length (console (snd (serve three_requests world_flaky))) = 2%nat.
Proof.
  split; [exact flaky_arrivals_settle |].
  destruct (serve_console_log three_requests world_flaky
              flaky_arrivals_settle) as [H1 H2].
  split; [exact H1 | exact H2].
Defined.

Lemma serve_no_sticky_failure_witness :
  Forall (fun a => settles (probe a) = true /\
                   JsDate.time_value (response_time a))
    (arrivals three_requests world_flaky) /\
  exists rs,
    fst (serve three_requests world_flaky) = map Responds rs /\
    map status rs = [503; 200; 503].
Proof.
  split; [exact flaky_arrivals_settle |].
  destruct (serve_no_sticky_failure three_requests world_flaky
              flaky_arrivals_settle) as (rs & H1 & H2 & _).
  exists rs. split; [exact H1 | exact H2].
Defined.

Lemma GET_timestamps_sort_witness :
  settles (probe world_flaky) = true /\
  settles (probe world_no_row) = true /\
  first_common_instant <= response_time world_flaky <= last_common_instant /\
  first_common_instant <= response_time world_no_row <= last_common_instant /\
  exists r1 r2 text1 text2,
    fst (GET world_flaky) = Responds r1 /\
    fst (GET world_no_row) = Responds r2 /\
    field "timestamp" r1 = Some (VString text1) /\
    field "timestamp" r2 = Some (VString text2) /\
    String.compare text1 text2
    = (response_time world_flaky ?= response_time world_no_row).
Proof.
  split; [reflexivity |]. split; [reflexivity |].
  split; [vm_compute; split; discriminate |].
  split; [exact sample_clock_is_common |].
  destruct (GET_timestamps_sort world_flaky world_no_row)
    as (r1 & r2 & t1 & t2 & H1 & H2 & H3 & H4 & H5 & _);
    [reflexivity | reflexivity | vm_compute; split; discriminate
    | exact sample_clock_is_common |].
  exists r1, r2, t1, t2. repeat split; assumption.
Defined.
